(** * Smart Health Monitoring Dashboard: the data pipeline of MyWebProject.py

    A shallow embedding of the script's data pipeline: the synthetic record
    generator, the merge of the health and water frames, the derived Risk
    column, [filter_data], the groupby summary of the download and table
    callbacks, and the CSV text written by the download callbacks.

    Conventions of the embedding.
    - A DataFrame is the list of its rows, in index order; a row is a record
      whose fields carry the column names of the script.
    - Python [int] is [Z]. The float columns (pH, Turbidity and the two
      averages) are exact rationals [Q]: rounding of doubles is outside the
      model.
    - The Date column holds midnight timestamps; a timestamp is the number of
      days since the epoch, a [Z], and the two bounds of a request are
      already converted by [pd.to_datetime].
    - Python [str] is [string]; comparison of strings is by code unit, which
      is [String.compare]. *)

From Stdlib Require Import ZArith QArith List String Ascii Bool Lia.
From Stdlib Require Import Sorted Permutation Mergesort Orders OrderedTypeEx.
From Stdlib Require Import DecimalString.
Import ListNotations.

Local Open Scope string_scope.
Local Open Scope list_scope.
Local Open Scope Z_scope.

(** ** Python strings *)

Module Str.

(** [needle in hay] on two [str] values: substring search. *)
Fixpoint contains (needle hay : string) : bool :=
  match hay with
  | EmptyString => String.prefix needle EmptyString
  | String _ rest => String.prefix needle hay || contains needle rest
  end.

(** [sep.join(parts)]. *)
Definition join (sep : string) (parts : list string) : string :=
  String.concat sep parts.

(** Whether character [c] occurs in [s]. *)
Fixpoint mem (c : ascii) (s : string) : bool :=
  match s with
  | EmptyString => false
  | String d rest => Ascii.eqb c d || mem c rest
  end.

End Str.

(** ** The frames *)

Module HealthDf.
(** columns=['Patient_ID','Age','Symptoms','Location','Date'] *)
Record row : Type := mk
  { Patient_ID : Z; Age : Z; Symptoms : string; Location : string; Date : Z }.
End HealthDf.

Module WaterDf.
(** columns=['Location','pH','Turbidity','Bacterial_Count'] *)
Record row : Type := mk
  { Location : string; pH : Q; Turbidity : Q; Bacterial_Count : Z }.
End WaterDf.

Module Merged.
(** The columns of [pd.merge(health_df, water_df, on='Location')]: the
    left frame's columns, then the right frame's other columns. *)
Record row : Type := mk
  { Patient_ID : Z; Age : Z; Symptoms : string; Location : string; Date : Z;
    pH : Q; Turbidity : Q; Bacterial_Count : Z }.
End Merged.

(** A row of [data] once the Risk column is assigned. *)
Record JoinedRecord : Type := mkJoined
  { Patient_ID : Z; Age : Z; Symptoms : string; Location : string; Date : Z;
    pH : Q; Turbidity : Q; Bacterial_Count : Z; Risk : Z }.

(** A row of the summary frame after [reset_index()]. *)
Record SummaryRow : Type := mkSummary
  { sLocation : string; Total_Cases : Z; High_Risk_Cases : Z;
    Avg_Bacterial_Count : Q; Avg_pH : Q }.

(** ** Synthetic data *)

Definition villages : list string :=
  ["Tripura"; "Assam"; "Megalaya"; "Manipur"; "sikkim"].

Definition symptoms_list : list string :=
  ["Diarrhea"; "Fever"; "Vomiting"; "Stomach Pain"; "Hepatitis"].

(** The random draws behind one health record, made explicit. *)
Record health_draw : Type := mkDraw
  { choice_village : string;        (* random.choice(villages) *)
    randint_age : Z;                (* random.randint(1, 70) *)
    sample_symptoms : list string;  (* random.sample(symptoms_list, k) *)
    randint_days : Z }.             (* random.randint(0, 30) *)

(** The body of the loop [for i in range(1, 51)]. *)
Definition health_record (today i : Z) (d : health_draw) : HealthDf.row :=
  {| HealthDf.Patient_ID := i;
     HealthDf.Age := randint_age d;
     HealthDf.Symptoms := Str.join "," (sample_symptoms d);
     HealthDf.Location := choice_village d;
     HealthDf.Date := today - randint_days d |}.

Fixpoint health_records_from (today i : Z) (draws : list health_draw)
  : list HealthDf.row :=
  match draws with
  | [] => []
  | d :: rest => health_record today i d :: health_records_from today (i + 1) rest
  end.

Definition health_records (today : Z) (draws : list health_draw) :=
  health_records_from today 1 draws.

(** The random draws behind one water record. *)
Record water_draw : Type := mkWaterDraw
  { uniform_pH : Q; uniform_turbidity : Q; randint_bacterial : Z }.

Definition water_record (village : string) (d : water_draw) : WaterDf.row :=
  {| WaterDf.Location := village;
     WaterDf.pH := uniform_pH d;
     WaterDf.Turbidity := uniform_turbidity d;
     WaterDf.Bacterial_Count := randint_bacterial d |}.

(** [for village in villages: water_records.append(...)], one draw each. *)
Fixpoint water_records_for (vs : list string) (draws : list water_draw)
  : list WaterDf.row :=
  match vs, draws with
  | v :: vs', d :: draws' => water_record v d :: water_records_for vs' draws'
  | _, _ => []
  end.

Definition water_records (draws : list water_draw) : list WaterDf.row :=
  water_records_for villages draws.

(** ** Merge *)

(** What a pandas call can raise here. *)
Inductive exn : Type := MergeError.

Inductive outcome (A : Type) : Type :=
| Ok (a : A)
| Raise (e : exn).
Arguments Ok {A} a.
Arguments Raise {A} e.

(** The [validate] argument of [pd.merge]; the script leaves it at its
    default, [None], which checks nothing. *)
Inductive validate_mode : Type :=
| one_to_one | one_to_many | many_to_one | many_to_many.

Fixpoint is_unique (keys : list string) : bool :=
  match keys with
  | [] => true
  | k :: rest => negb (existsb (String.eqb k) rest) && is_unique rest
  end.

Definition attach (h : HealthDf.row) (w : WaterDf.row) : Merged.row :=
  {| Merged.Patient_ID := HealthDf.Patient_ID h;
     Merged.Age := HealthDf.Age h;
     Merged.Symptoms := HealthDf.Symptoms h;
     Merged.Location := HealthDf.Location h;
     Merged.Date := HealthDf.Date h;
     Merged.pH := WaterDf.pH w;
     Merged.Turbidity := WaterDf.Turbidity w;
     Merged.Bacterial_Count := WaterDf.Bacterial_Count w |}.

(** The right rows whose key equals the key of [h], in right order. *)
Definition matches (h : HealthDf.row) (right : list WaterDf.row)
  : list WaterDf.row :=
  filter (fun w => String.eqb (WaterDf.Location w) (HealthDf.Location h)) right.

(** how='inner' on 'Location': every pair of a left and a right row with
    equal keys, in the order of the left keys. *)
Definition inner_join (left : list HealthDf.row) (right : list WaterDf.row)
  : list Merged.row :=
  flat_map (fun h => map (attach h) (matches h right)) left.

Definition pd_merge (validate : option validate_mode)
    (left : list HealthDf.row) (right : list WaterDf.row)
  : outcome (list Merged.row) :=
  let left_unique := is_unique (map HealthDf.Location left) in
  let right_unique := is_unique (map WaterDf.Location right) in
  let checked :=
    match validate with
    | None | Some many_to_many => true
    | Some one_to_one => left_unique && right_unique
    | Some one_to_many => left_unique
    | Some many_to_one => right_unique
    end in
  if checked then Ok (inner_join left right) else Raise MergeError.

(** ** The Risk column *)

(** lambda x: 1 if 'Diarrhea' in x['Symptoms'] or x['Bacterial_Count'] > 300 else 0 *)
Definition risk_lambda (x : Merged.row) : Z :=
  if Str.contains "Diarrhea" (Merged.Symptoms x)
     || (300 <? Merged.Bacterial_Count x)
  then 1 else 0.

(** [data['Risk'] = data.apply(..., axis=1)] *)
Definition assign_risk (m : list Merged.row) : list JoinedRecord :=
  map (fun x =>
         {| Patient_ID := Merged.Patient_ID x;
            Age := Merged.Age x;
            Symptoms := Merged.Symptoms x;
            Location := Merged.Location x;
            Date := Merged.Date x;
            pH := Merged.pH x;
            Turbidity := Merged.Turbidity x;
            Bacterial_Count := Merged.Bacterial_Count x;
            Risk := risk_lambda x |}) m.

(** The two module-level statements that build [data]. *)
Definition build_data (health_df : list HealthDf.row) (water_df : list WaterDf.row)
  : outcome (list JoinedRecord) :=
  match pd_merge None health_df water_df with
  | Ok merged => Ok (assign_risk merged)
  | Raise e => Raise e
  end.

(** ** filter_data *)

Definition filter_data (data : list JoinedRecord)
    (selected_village : string) (start_date end_date : Z)
  : list JoinedRecord :=
  let df := data in
  let df :=
    if negb (String.eqb selected_village "All")
    then filter (fun r => String.eqb (Location r) selected_village) df
    else df in
  let df :=
    filter (fun r => (start_date <=? Date r) && (Date r <=? end_date)) df in
  df.


(** ** groupby('Location').agg(...).reset_index() *)

(** The order of the group keys: [str] comparison, [a <= b]. *)
Module LocationOrder <: TotalLeBool.
Definition t := string.
Definition leb := String.leb.
Theorem leb_total : forall a1 a2, leb a1 a2 = true \/ leb a2 a1 = true.
Proof. exact String.leb_total. Qed.
End LocationOrder.

Module LocationSort := Sort LocationOrder.

(** The distinct values of a key column, by first appearance. *)
Fixpoint unique (keys : list string) : list string :=
  match keys with
  | [] => []
  | k :: rest => k :: filter (fun k' => negb (String.eqb k' k)) (unique rest)
  end.

(** The group keys of [df.groupby('Location')]: sort=True is the default, so
    the distinct locations come sorted. *)
Definition group_keys (df : list JoinedRecord) : list string :=
  LocationSort.sort (unique (map Location df)).

(** The rows of the group of [key], in frame order. *)
Definition get_group (df : list JoinedRecord) (key : string) : list JoinedRecord :=
  filter (fun r => String.eqb (Location r) key) df.

(** The aggregations 'count', 'sum' and 'mean' on a column without nulls. *)
Definition count {A : Type} (column : list A) : Z := Z.of_nat (List.length column).

Definition sum (column : list Z) : Z := fold_right Z.add 0 column.

Definition sumQ (column : list Q) : Q := fold_right Qplus (0 # 1)%Q column.

Definition mean (column : list Q) : Q :=
  (sumQ column / inject_Z (Z.of_nat (List.length column)))%Q.

(** The summary frame shared by [download_summary], tab4 of [update_tab]
    and the last branch of [download_graph]. *)
Definition summary (df : list JoinedRecord) : list SummaryRow :=
  map (fun key =>
         let group := get_group df key in
         {| sLocation := key;
            Total_Cases := count (map Patient_ID group);
            High_Risk_Cases := sum (map Risk group);
            Avg_Bacterial_Count :=
              mean (map (fun r => inject_Z (Bacterial_Count r)) group);
            Avg_pH := mean (map pH group) |})
      (group_keys df).

(** ** CSV text *)

(** The writer behind [DataFrame.to_csv] and a reader for the text it
    writes, both in the default dialect of Python's csv module: delimiter
    comma, one quote character, doublequote, QUOTE_MINIMAL, and the line
    terminator LF that [to_csv] passes on Linux. *)
Module Csv.

Definition delimiter : ascii := ","%char.
Definition quotechar : ascii := ascii_of_nat 34.
Definition LF : ascii := ascii_of_nat 10.
Definition CR : ascii := ascii_of_nat 13.

Definition is_newline (c : ascii) : bool := Ascii.eqb c LF || Ascii.eqb c CR.

(** *** Writer *)

(** QUOTE_MINIMAL: a field is quoted when it holds the delimiter, the quote
    character, CR or LF. *)
Definition special (c : ascii) : bool :=
  Ascii.eqb c delimiter || Ascii.eqb c quotechar || is_newline c.

Fixpoint needs_quotes (field : string) : bool :=
  match field with
  | EmptyString => false
  | String c rest => special c || needs_quotes rest
  end.

(** doublequote: a quote character inside a quoted field is written twice. *)
Fixpoint escape (field : string) : string :=
  match field with
  | EmptyString => EmptyString
  | String c rest =>
      if Ascii.eqb c quotechar
      then String quotechar (String quotechar (escape rest))
      else String c (escape rest)
  end.

Definition write_field (field : string) : string :=
  if needs_quotes field
  then String quotechar (escape field ++ String quotechar EmptyString)
  else field.

Definition lineterminator : string := String LF EmptyString.

(** [writer.writerow]: a record made of one empty field is written as an
    empty quoted field, so that the line is not blank. *)
Definition writerow (fields : list string) : string :=
  match fields with
  | [EmptyString] => String quotechar (String quotechar lineterminator)
  | _ => Str.join (String delimiter EmptyString) (map write_field fields)
         ++ lineterminator
  end.

Definition writerows (rows : list (list string)) : string :=
  String.concat EmptyString (map writerow rows).

(** *** Reader *)

Inductive ParserState : Type :=
| START_RECORD | START_FIELD | IN_FIELD
| IN_QUOTED_FIELD | QUOTE_IN_QUOTED_FIELD | EAT_CRNL.

(** The reader's registers: the state, the fields of the record being read
    and the characters of the field being read. *)
Record Reader : Type := mkReader
  { state : ParserState; fields : list string; field : string }.

Definition parse_add_char (r : Reader) (st : ParserState) (c : ascii) : Reader :=
  {| state := st; fields := fields r;
     field := field r ++ String c EmptyString |}.

Definition parse_save_field (r : Reader) (st : ParserState) : Reader :=
  {| state := st; fields := fields r ++ [field r]; field := EmptyString |}.

Definition parse_reset (st : ParserState) : Reader :=
  {| state := st; fields := []; field := EmptyString |}.

(** The state after the newline character [c] ended a record: after CR one
    LF is still to be eaten. *)
Definition after_newline (c : ascii) : ParserState :=
  if Ascii.eqb c CR then EAT_CRNL else START_RECORD.

(** Ends the record at the newline [c], the field being read included. *)
Definition end_record (r : Reader) (c : ascii) : Reader * list (list string) :=
  (parse_reset (after_newline c), [fields r ++ [field r]]).

Definition start_field (r : Reader) (c : ascii) : Reader * list (list string) :=
  if is_newline c then end_record r c
  else if Ascii.eqb c quotechar then
    ({| state := IN_QUOTED_FIELD; fields := fields r; field := field r |}, [])
  else if Ascii.eqb c delimiter then (parse_save_field r START_FIELD, [])
  else (parse_add_char r IN_FIELD c, []).

(** A newline at the start of a record is a blank line: a record without
    fields. *)
Definition start_record (r : Reader) (c : ascii) : Reader * list (list string) :=
  if is_newline c then (parse_reset (after_newline c), [[]])
  else start_field r c.

(** One character through the state machine: the next registers and the
    records completed by the character. *)
Definition parse_process_char (r : Reader) (c : ascii)
  : Reader * list (list string) :=
  match state r with
  | START_RECORD => start_record r c
  | START_FIELD => start_field r c
  | IN_FIELD =>
      if is_newline c then end_record r c
      else if Ascii.eqb c delimiter then (parse_save_field r START_FIELD, [])
      else (parse_add_char r IN_FIELD c, [])
  | IN_QUOTED_FIELD =>
      if Ascii.eqb c quotechar then
        ({| state := QUOTE_IN_QUOTED_FIELD; fields := fields r; field := field r |}, [])
      else (parse_add_char r IN_QUOTED_FIELD c, [])
  | QUOTE_IN_QUOTED_FIELD =>
      if Ascii.eqb c quotechar then (parse_add_char r IN_QUOTED_FIELD c, [])
      else if Ascii.eqb c delimiter then (parse_save_field r START_FIELD, [])
      else if is_newline c then end_record r c
      else (parse_add_char r IN_FIELD c, [])
  | EAT_CRNL =>
      if Ascii.eqb c LF then (parse_reset START_RECORD, [])
      else start_record r c
  end.

(** At the end of the text a record that was begun is completed. *)
Definition finish (r : Reader) : list (list string) :=
  match state r with
  | START_RECORD | EAT_CRNL => []
  | _ => [fields r ++ [field r]]
  end.

Fixpoint run (r : Reader) (text : string) : list (list string) :=
  match text with
  | EmptyString => finish r
  | String c rest =>
      let (r', records) := parse_process_char r c in
      records ++ run r' rest
  end.

(** [list(csv.reader(...))] over the whole text. *)
Definition reader (text : string) : list (list string) :=
  run (parse_reset START_RECORD) text.

End Csv.

(** ** The download callbacks *)

(** [df.to_csv(index=False)] on a frame given by its column names and the
    text of its cells. *)
Definition to_csv (columns : list string) (cells : list (list string)) : string :=
  Csv.writerows (columns :: cells).

(** An [int] cell is written in decimal. *)
Definition repr_int (n : Z) : string :=
  DecimalString.NilZero.string_of_int (Z.to_int n).

Definition raw_columns : list string :=
  ["Patient_ID"; "Age"; "Symptoms"; "Location"; "Date"; "pH"; "Turbidity";
   "Bacterial_Count"; "Risk"].

Definition summary_columns : list string :=
  ["Location"; "Total_Cases"; "High_Risk_Cases"; "Avg_Bacterial_Count"; "Avg_pH"].

Section Download.

(** How pandas prints a timestamp cell and a float cell. *)
Variable repr_date : Z -> string.
Variable repr_float : Q -> string.

Definition raw_cells (r : JoinedRecord) : list string :=
  [repr_int (Patient_ID r); repr_int (Age r); Symptoms r; Location r;
   repr_date (Date r); repr_float (pH r); repr_float (Turbidity r);
   repr_int (Bacterial_Count r); repr_int (Risk r)].

Definition summary_cells (s : SummaryRow) : list string :=
  [sLocation s; repr_int (Total_Cases s); repr_int (High_Risk_Cases s);
   repr_float (Avg_Bacterial_Count s); repr_float (Avg_pH s)].

(** The content that [download_raw] sends. *)
Definition download_raw (data : list JoinedRecord)
    (selected_village : string) (start_date end_date : Z) : string :=
  let df := filter_data data selected_village start_date end_date in
  to_csv raw_columns (map raw_cells df).

(** The content that [download_summary] sends. *)
Definition download_summary (data : list JoinedRecord)
    (selected_village : string) (start_date end_date : Z) : string :=
  let df := filter_data data selected_village start_date end_date in
  to_csv summary_columns (map summary_cells (summary df)).

End Download.

(** ** The layout *)

(** The options of the village dropdown: ['All'] + villages. *)
Definition village_options : list string := "All" :: villages.

(** [column.min()] and [column.max()] of the Date column, the bounds the
    date picker starts with; [None] stands for NaT, the value for a column
    without rows. *)
Definition column_min (column : list Z) : option Z :=
  match column with
  | [] => None
  | d :: rest => Some (fold_left Z.min rest d)
  end.

Definition column_max (column : list Z) : option Z :=
  match column with
  | [] => None
  | d :: rest => Some (fold_left Z.max rest d)
  end.

(** ** update_tab *)

(** [text.split(sep)] for a separator of one character. *)
Fixpoint str_split (sep : ascii) (text : string) : list string :=
  match text with
  | EmptyString => [EmptyString]
  | String c rest =>
      if Ascii.eqb c sep then EmptyString :: str_split sep rest
      else match str_split sep rest with
           | [] => [String c EmptyString]
           | part :: parts => String c part :: parts
           end
  end.

(** [df['Symptoms'].dropna().str.split(',').sum()] on a frame with rows: the
    lists of the rows, one after the other. There is no null to drop. *)
Definition all_symptoms (df : list JoinedRecord) : list string :=
  flat_map (fun r => str_split "," (Symptoms r)) df.

(** [df.groupby('Location')['Risk'].sum().reset_index()] *)
Definition risk_count (df : list JoinedRecord) : list (string * Z) :=
  map (fun key => (key, sum (map Risk (get_group df key)))) (group_keys df).

(** What a figure is built from. *)
Inductive figure : Type :=
| px_pie (names : list string) (values : list Z) (title : string)
| px_bar (frame : list (string * Z)) (title : string)
| px_scatter (frame : list JoinedRecord) (title : string)
| go_Table (header : list string) (cells : list SummaryRow).

Inductive component : Type :=
| html_H3 (text : string)
| dcc_Graph (fig : figure).

(** f'{name} ({selected_village})' *)
Definition titled (name selected_village : string) : string :=
  (name ++ " (" ++ selected_village ++ ")")%string.

Section ValueCounts.

(** [Series.sort_values(ascending=False)] on the counts: pandas documents the
    descending order and leaves the order of equal counts open, so the sort
    is a parameter. *)
Variable sort_values : list (string * Z) -> list (string * Z).

(** [pd.Series(values).value_counts()]: the distinct values with the number
    of their occurrences, sorted by that number. *)
Definition value_counts (values : list string) : list (string * Z) :=
  sort_values
    (map (fun key => (key, Z.of_nat (count_occ string_dec values key)))
         (unique values)).

Definition symptom_counts (df : list JoinedRecord) : list (string * Z) :=
  value_counts (all_symptoms df).

(** The callback of the tabs; [None] is the return of a Python function that
    ends without a return statement. *)
Definition update_tab (data : list JoinedRecord)
    (tab selected_village : string) (start_date end_date : Z)
  : option component :=
  let df := filter_data data selected_village start_date end_date in
  match df with
  | [] => Some (html_H3 "No data available for this filter.")
  | _ :: _ =>
      if String.eqb tab "tab1" then
        let counts := symptom_counts df in
        Some (dcc_Graph (px_pie (map fst counts) (map snd counts)
                                (titled "Symptom Distribution" selected_village)))
      else if String.eqb tab "tab2" then
        Some (dcc_Graph (px_bar (risk_count df)
                                (titled "High-Risk Cases" selected_village)))
      else if String.eqb tab "tab3" then
        Some (dcc_Graph (px_scatter df
                                    (titled "Bacterial Count vs Age" selected_village)))
      else if String.eqb tab "tab4" then
        Some (dcc_Graph (go_Table summary_columns (summary df)))
      else None
  end.

End ValueCounts.

(** A sort that meets the contract of [sort_values]: by count, descending. *)
Module CountOrder <: TotalLeBool.
Definition t : Type := (string * Z)%type.
Definition leb (a b : t) : bool := snd b <=? snd a.
Theorem leb_total_count : forall a1 a2, leb a1 a2 = true \/ leb a2 a1 = true.
Proof. intros a1 a2. unfold leb. rewrite !Z.leb_le. lia. Qed.
Definition leb_total := leb_total_count.
End CountOrder.

Module CountSort := Sort CountOrder.

(** ** Example frames *)

(** Three health records; the location of the third has no water sample. *)
Definition example_health : list HealthDf.row :=
  [HealthDf.mk 1 34 "Fever,Diarrhea" "Assam" 19000;
   HealthDf.mk 2 8 "Vomiting" "sikkim" 19010;
   HealthDf.mk 3 51 "Hepatitis" "Nagaland" 19005].

Definition example_water : list WaterDf.row :=
  [WaterDf.mk "Assam" (72 # 10) (35 # 1) 120;
   WaterDf.mk "sikkim" (65 # 10) (12 # 1) 410].

(** A water frame with two samples of one location. *)
Definition duplicate_water : list WaterDf.row :=
  [WaterDf.mk "Assam" (72 # 10) (35 # 1) 120;
   WaterDf.mk "Assam" (68 # 10) (40 # 1) 90].

Definition example_merged : list Merged.row :=
  inner_join example_health example_water.

Definition example_data : list JoinedRecord := assign_risk example_merged.


Definition example_water_draws : list water_draw :=
  [mkWaterDraw (61 # 10) (20 # 1) 90;
   mkWaterDraw (72 # 10) (35 # 1) 120;
   mkWaterDraw (80 # 10) (5 # 1) 300;
   mkWaterDraw (55 # 10) (77 # 1) 580;
   mkWaterDraw (65 # 10) (12 # 1) 410].

(** ** Statements of the specification *)

(** [sub] is a subsequence of [l]: [l] with some elements left out, the
    others in the order of [l]. *)
Inductive subsequence {A : Type} : list A -> list A -> Prop :=
| subsequence_nil : subsequence [] []
| subsequence_skip x sub l : subsequence sub l -> subsequence sub (x :: l)
| subsequence_keep x sub l : subsequence sub l -> subsequence (x :: sub) (x :: l).

(** The filter of the specification, in one pass: the location of the
    record is the requested one, or the request is the wildcard, and the
    date lies between the two bounds, both included. *)
Definition request_matches (location : string) (start_date end_date : Z)
    (r : JoinedRecord) : bool :=
  (String.eqb location "All" || String.eqb (Location r) location)
  && ((start_date <=? Date r) && (Date r <=? end_date)).

(** The risk flag of a record is set. *)
Definition at_risk (r : JoinedRecord) : bool := Risk r =? 1.

(** * Theorems *)

(** ** The risk rule *)

Lemma prefix_before_comma (a needle b : string) :
  Str.mem "," needle = false ->
  String.prefix needle (a ++ String "," b) = String.prefix needle a.
Proof.
  revert needle; induction a as [|x a IH]; intros [|c needle] Hc; simpl; try reflexivity.
  - simpl in Hc. apply orb_false_elim in Hc as [Hc _].
    destruct (ascii_dec c ","%char) as [->|_]; [discriminate Hc | reflexivity].
  - simpl in Hc. apply orb_false_elim in Hc as [_ Hc].
    destruct (ascii_dec c x); [apply IH, Hc | reflexivity].
Qed.

Lemma contains_append_comma (needle a b : string) :
  Str.mem "," needle = false ->
  Str.contains needle (a ++ String "," b)
  = Str.contains needle a || Str.contains needle b.
Proof.
  intros Hc. induction a as [|x a IH].
  - change (EmptyString ++ String "," b)%string with (String "," b).
    cbn [Str.contains].
    rewrite <- (prefix_before_comma EmptyString needle b Hc). reflexivity.
  - change (String x a ++ String "," b)%string with (String x (a ++ String "," b)).
    cbn [Str.contains]. rewrite IH.
    change (String x (a ++ String "," b)) with (String x a ++ String "," b)%string.
    rewrite prefix_before_comma by exact Hc.
    now rewrite orb_assoc.
Qed.

(** A needle without comma and not empty occurs in the joined text exactly
    when it occurs in one of the joined parts. *)
Lemma contains_join (needle : string) (parts : list string) :
  Str.mem "," needle = false -> needle <> EmptyString ->
  Str.contains needle (Str.join "," parts) = existsb (Str.contains needle) parts.
Proof.
  intros Hc Hne. unfold Str.join.
  induction parts as [|p parts IH].
  - simpl. destruct needle; [contradiction | reflexivity].
  - destruct parts as [|p' parts].
    + simpl. now rewrite orb_false_r.
    + change (String.concat "," (p :: p' :: parts))
        with (p ++ String "," (String.concat "," (p' :: parts)))%string.
      rewrite contains_append_comma by exact Hc.
      rewrite IH. reflexivity.
Qed.

Lemma contains_Diarrhea_symptom (s : string) :
  In s symptoms_list -> Str.contains "Diarrhea" s = String.eqb s "Diarrhea".
Proof.
  unfold symptoms_list. simpl.
  intros [<-|[<-|[<-|[<-|[<-|[]]]]]]; reflexivity.
Qed.

Lemma existsb_contains_Diarrhea (sample : list string) :
  (forall s, In s sample -> In s symptoms_list) ->
  existsb (Str.contains "Diarrhea") sample = true <-> In "Diarrhea" sample.
Proof.
  intros Hvoc. rewrite existsb_exists. split.
  - intros (s & Hin & Hs).
    rewrite (contains_Diarrhea_symptom s (Hvoc s Hin)) in Hs.
    apply String.eqb_eq in Hs. now subst s.
  - intros Hin. exists "Diarrhea". split; [exact Hin | reflexivity].
Qed.

Lemma risk_lambda_flag (x : Merged.row) : risk_lambda x = 1 \/ risk_lambda x = 0.
Proof. unfold risk_lambda. destruct (_ || _); auto. Qed.

Lemma In_assign_risk (m : list Merged.row) (r : JoinedRecord) :
  In r (assign_risk m) ->
  exists x, In x m /\ Symptoms r = Merged.Symptoms x
            /\ Bacterial_Count r = Merged.Bacterial_Count x
            /\ Location r = Merged.Location x
            /\ Risk r = risk_lambda x.
Proof.
  unfold assign_risk. rewrite in_map_iff. intros (x & <- & Hin).
  exists x. simpl. auto.
Qed.

(** The rule of [risk_lambda] on a row whose Symptoms text is a joined
    sample of [symptoms_list]. *)
Lemma risk_lambda_rule (x : Merged.row) (sample : list string) :
  Merged.Symptoms x = Str.join "," sample ->
  (forall s, In s sample -> In s symptoms_list) ->
  (risk_lambda x = 1 <->
   In "Diarrhea" sample \/ Merged.Bacterial_Count x > 300).
Proof.
  intros Hsym Hvoc. unfold risk_lambda.
  rewrite Hsym, contains_join by (reflexivity || discriminate).
  pose proof (existsb_contains_Diarrhea sample Hvoc) as Hex.
  destruct (existsb (Str.contains "Diarrhea") sample) eqn:E; simpl.
  - split; [intros _; left; now apply Hex | reflexivity].
  - destruct (300 <? Merged.Bacterial_Count x) eqn:Hlt.
    + apply Z.ltb_lt in Hlt. split; [intros _; right; lia | reflexivity].
    + apply Z.ltb_ge in Hlt. split; [discriminate |].
      intros [Hin | Hgt]; [apply Hex in Hin; discriminate | lia].
Qed.

(** C1. In the frame built by the script, where the Symptoms text of a record
    is the comma-joined sample of its symptoms drawn from [symptoms_list], the
    Risk flag of a record is 1 exactly when Diarrhea is one of its symptoms or
    its Bacterial_Count is greater than 300. *)
Theorem risk_iff_diarrhea_or_bacterial_count
    (m : list Merged.row) (r : JoinedRecord) (sample : list string) :
  In r (assign_risk m) ->
  Symptoms r = Str.join "," sample ->
  (forall s, In s sample -> In s symptoms_list) ->
  (Risk r = 1 <-> In "Diarrhea" sample \/ Bacterial_Count r > 300).
Proof.
  intros Hr Hsym Hvoc.
  destruct (In_assign_risk m r Hr) as (x & _ & Hs & Hb & _ & Hrisk).
  rewrite Hrisk, Hb.
  apply risk_lambda_rule; [|exact Hvoc].
  now rewrite <- Hs.
Qed.

(** The records of the generator keep the sample they were made from. *)
Lemma In_health_records_from (today i : Z) (draws : list health_draw)
    (h : HealthDf.row) :
  In h (health_records_from today i draws) ->
  exists d, In d draws
            /\ HealthDf.Symptoms h = Str.join "," (sample_symptoms d)
            /\ HealthDf.Location h = choice_village d.
Proof.
  revert i. induction draws as [|d draws IH]; intros i; simpl; [tauto|].
  intros [<- | Hin].
  - exists d. simpl. auto.
  - destruct (IH _ Hin) as (d' & Hd' & Hs & Hl). exists d'. auto.
Qed.

(** The risk rule through the whole construction of [data]: the generated
    health records, merged with any water frame, then classified. *)
Corollary risk_rule_on_generated_data (today : Z) (draws : list health_draw)
    (water_df : list WaterDf.row) (data : list JoinedRecord) (r : JoinedRecord) :
  (forall d s, In d draws -> In s (sample_symptoms d) -> In s symptoms_list) ->
  build_data (health_records today draws) water_df = Ok data ->
  In r data ->
  exists d, In d draws
            /\ Symptoms r = Str.join "," (sample_symptoms d)
            /\ (Risk r = 1 <->
                In "Diarrhea" (sample_symptoms d) \/ Bacterial_Count r > 300).
Proof.
  intros Hvoc Hbuild Hr. unfold build_data, pd_merge in Hbuild.
  injection Hbuild as <-.
  destruct (In_assign_risk _ r Hr) as (x & Hx & Hs & Hb & _ & Hrisk).
  unfold inner_join in Hx. apply in_flat_map in Hx as (h & Hh & Hx).
  apply in_map_iff in Hx as (w & <- & _).
  destruct (In_health_records_from _ _ _ h Hh) as (d & Hd & Hsd & _).
  exists d. split; [exact Hd|].
  assert (Symptoms r = Str.join "," (sample_symptoms d)) as E
    by (rewrite Hs; exact Hsd).
  split; [exact E|].
  rewrite Hrisk, Hb. apply risk_lambda_rule; [exact Hsd | intros s; exact (Hvoc d s Hd)].
Qed.

(** ** filter_data *)

Lemma filter_twice {A : Type} (f g : A -> bool) (l : list A) :
  filter g (filter f l) = filter (fun x => f x && g x) l.
Proof.
  induction l as [|x l IH]; simpl; [reflexivity|].
  destruct (f x); simpl; [destruct (g x)|]; now rewrite IH.
Qed.

(** The two masks of [filter_data] select what the one-pass filter of the
    specification selects. *)
Lemma filter_data_one_pass (data : list JoinedRecord)
    (selected_village : string) (start_date end_date : Z) :
  filter_data data selected_village start_date end_date
  = filter (request_matches selected_village start_date end_date) data.
Proof.
  unfold filter_data, request_matches.
  destruct (String.eqb selected_village "All"); simpl.
  - reflexivity.
  - apply filter_twice.
Qed.

Lemma request_matches_true (location : string) (start_date end_date : Z)
    (r : JoinedRecord) :
  request_matches location start_date end_date r = true <->
  (location = "All" \/ Location r = location)
  /\ start_date <= Date r <= end_date.
Proof.
  unfold request_matches.
  rewrite !andb_true_iff, orb_true_iff, !String.eqb_eq, !Z.leb_le. tauto.
Qed.

Lemma In_filter_data (data : list JoinedRecord)
    (selected_village : string) (start_date end_date : Z) (r : JoinedRecord) :
  In r (filter_data data selected_village start_date end_date) <->
  In r data
  /\ (selected_village = "All" \/ Location r = selected_village)
  /\ start_date <= Date r <= end_date.
Proof.
  rewrite filter_data_one_pass, filter_In, request_matches_true. tauto.
Qed.

(** C2. [filter_data] returns exactly the records of the requested location
    (every record for the wildcard All) whose date lies between the two
    bounds, both included: it is the one-pass filter of the specification; a
    record whose date is both bounds is kept, and a start one day after the
    date of a record leaves the record out. *)
Theorem filter_data_exact (data : list JoinedRecord)
    (selected_village : string) (start_date end_date : Z) :
  filter_data data selected_village start_date end_date
  = filter (request_matches selected_village start_date end_date) data
  /\ (forall r,
        In r (filter_data data selected_village start_date end_date) <->
        In r data
        /\ (selected_village = "All" \/ Location r = selected_village)
        /\ start_date <= Date r <= end_date)
  /\ (forall r,
        In r data ->
        selected_village = "All" \/ Location r = selected_village ->
        In r (filter_data data selected_village (Date r) (Date r)))
  /\ (forall r,
        ~ In r (filter_data data selected_village (Date r + 1) end_date)).
Proof.
  split; [apply filter_data_one_pass|].
  split; [intros r; apply In_filter_data|].
  split.
  - intros r Hin Hloc. apply In_filter_data. repeat split; auto; lia.
  - intros r Hin. apply In_filter_data in Hin. lia.
Qed.

Lemma subsequence_filter {A : Type} (f : A -> bool) (l : list A) :
  subsequence (filter f l) l.
Proof.
  induction l as [|x l IH]; simpl.
  - constructor.
  - destruct (f x); constructor; exact IH.
Qed.

Lemma subsequence_In {A : Type} (sub l : list A) :
  subsequence sub l -> forall x, In x sub -> In x l.
Proof.
  induction 1; simpl; intros y Hy; auto.
  destruct Hy; auto.
Qed.

(** Two elements of a subsequence stand in the order they have in the list:
    a subsequence cut in two is made of a subsequence of a first part of the
    list and a subsequence of the rest. *)
Lemma subsequence_split {A : Type} (sub1 sub2 l : list A) :
  subsequence (sub1 ++ sub2) l ->
  exists l1 l2, l = l1 ++ l2 /\ subsequence sub1 l1 /\ subsequence sub2 l2.
Proof.
  intros H. remember (sub1 ++ sub2) as sub eqn:E.
  revert sub1 sub2 E.
  induction H as [|x sub l H IH|x sub l H IH]; intros sub1 sub2 E.
  - symmetry in E. apply app_eq_nil in E as [-> ->].
    exists [], []. repeat constructor.
  - destruct (IH sub1 sub2 E) as (l1 & l2 & -> & H1 & H2).
    exists (x :: l1), l2. repeat split; auto. now constructor.
  - destruct sub1 as [|y sub1]; simpl in E.
    + subst sub2. exists [], (x :: l).
      repeat split; [constructor | apply subsequence_keep, H].
    + injection E as Hx Hsub. subst y.
      destruct (IH sub1 sub2 Hsub) as (l1 & l2 & -> & H1 & H2).
      exists (x :: l1), l2. repeat split; auto. now constructor.
Qed.

(** C9. The output of [filter_data] is a subsequence of the dataset: records
    are left out, none is added and none changes place. *)
Theorem filter_data_subsequence (data : list JoinedRecord)
    (selected_village : string) (start_date end_date : Z) :
  subsequence (filter_data data selected_village start_date end_date) data.
Proof.
  rewrite filter_data_one_pass. apply subsequence_filter.
Qed.

(** ** The order of strings *)

Lemma leb_lt_or_eq (a b : string) :
  String.leb a b = true <-> String_as_OT.lt a b \/ a = b.
Proof.
  unfold String.leb.
  pose proof (String_as_OT.cmp_lt a b) as Hlt.
  pose proof (String_as_OT.cmp_eq a b) as Heq.
  unfold String_as_OT.cmp in Hlt, Heq.
  destruct (String.compare a b).
  - split; [intros _; right; now apply Heq | reflexivity].
  - split; [intros _; left; now apply Hlt | reflexivity].
  - split; [discriminate|].
    intros [H | H]; [apply Hlt in H | apply Heq in H]; discriminate.
Qed.

Lemma ltb_lt (a b : string) : String.ltb a b = true <-> String_as_OT.lt a b.
Proof.
  unfold String.ltb. rewrite <- String_as_OT.cmp_lt. unfold String_as_OT.cmp.
  destruct (String.compare a b); split; congruence.
Qed.

Lemma leb_trans (a b c : string) :
  String.leb a b = true -> String.leb b c = true -> String.leb a c = true.
Proof.
  rewrite !leb_lt_or_eq. intros [Hab | ->] [Hbc | ->]; auto.
  left. exact (String_as_OT.lt_trans _ _ _ Hab Hbc).
Qed.

Lemma leb_neq_ltb (a b : string) :
  String.leb a b = true -> a <> b -> String.ltb a b = true.
Proof.
  rewrite leb_lt_or_eq, ltb_lt. intros [H | H] Hne; [exact H | contradiction].
Qed.

(** ** The group keys *)

Lemma In_unique (keys : list string) (k : string) :
  In k (unique keys) <-> In k keys.
Proof.
  induction keys as [|k0 keys IH]; simpl; [tauto|].
  rewrite filter_In, IH, negb_true_iff, String.eqb_neq.
  destruct (string_dec k0 k) as [->|Hne]; [tauto|].
  split; [tauto|]. intros [H | H]; [contradiction | right; split; congruence].
Qed.

Lemma NoDup_filter {A : Type} (f : A -> bool) (l : list A) :
  NoDup l -> NoDup (filter f l).
Proof.
  induction 1 as [|x l Hx Hl IH]; simpl; [constructor|].
  destruct (f x); [constructor|]; auto.
  rewrite filter_In. tauto.
Qed.

Lemma NoDup_unique (keys : list string) : NoDup (unique keys).
Proof.
  induction keys as [|k keys IH]; simpl; constructor.
  - rewrite filter_In, String.eqb_refl. simpl. intros [_ H]; discriminate.
  - now apply NoDup_filter.
Qed.

Lemma In_group_keys (df : list JoinedRecord) (k : string) :
  In k (group_keys df) <-> In k (map Location df).
Proof.
  unfold group_keys. rewrite <- (In_unique (map Location df)).
  pose proof (LocationSort.Permuted_sort (unique (map Location df))) as P.
  split; intros H.
  - exact (Permutation_in _ (Permutation_sym P) H).
  - exact (Permutation_in _ P H).
Qed.

Lemma NoDup_group_keys (df : list JoinedRecord) : NoDup (group_keys df).
Proof.
  unfold group_keys.
  exact (Permutation_NoDup (LocationSort.Permuted_sort _) (NoDup_unique _)).
Qed.

Lemma group_keys_sorted (df : list JoinedRecord) :
  StronglySorted (fun a b => String.leb a b = true) (group_keys df).
Proof.
  unfold group_keys. apply LocationSort.StronglySorted_sort.
  intros a b c. apply leb_trans.
Qed.

Lemma StronglySorted_strict (keys : list string) :
  StronglySorted (fun a b => String.leb a b = true) keys -> NoDup keys ->
  StronglySorted (fun a b => String.ltb a b = true) keys.
Proof.
  induction 1 as [|k keys Hs IH Hall]; intros Hnd; constructor.
  - apply IH. now inversion Hnd.
  - inversion Hnd as [|? ? Hk _]; subst.
    rewrite Forall_forall in *. intros k' Hin.
    apply leb_neq_ltb; [now apply Hall|].
    intros ->. contradiction.
Qed.

Lemma summary_locations (df : list JoinedRecord) :
  map sLocation (summary df) = group_keys df.
Proof.
  unfold summary. rewrite map_map. simpl. apply map_id.
Qed.

(** ** The summary frame *)

Lemma In_summary (df : list JoinedRecord) (row : SummaryRow) :
  In row (summary df) ->
  In (sLocation row) (group_keys df)
  /\ Total_Cases row = count (map Patient_ID (get_group df (sLocation row)))
  /\ High_Risk_Cases row = sum (map Risk (get_group df (sLocation row)))
  /\ Avg_Bacterial_Count row
     = mean (map (fun r => inject_Z (Bacterial_Count r)) (get_group df (sLocation row)))
  /\ Avg_pH row = mean (map pH (get_group df (sLocation row))).
Proof.
  unfold summary. rewrite in_map_iff. intros (key & <- & Hkey). simpl. auto.
Qed.

Lemma get_group_nonempty (df : list JoinedRecord) (key : string) :
  In key (map Location df) -> get_group df key <> [].
Proof.
  rewrite in_map_iff. intros (r & Hloc & Hin) Hnil.
  assert (In r (get_group df key)) as H.
  { unfold get_group. apply filter_In. split; [exact Hin|]. now apply String.eqb_eq. }
  rewrite Hnil in H. exact H.
Qed.

(** The sum of a column of 0/1 flags counts the flags that are 1. *)
Lemma sum_Risk_counts (df : list JoinedRecord) :
  (forall r, In r df -> Risk r = 1 \/ Risk r = 0) ->
  sum (map Risk df) = Z.of_nat (List.length (filter at_risk df)).
Proof.
  unfold sum, at_risk. induction df as [|r df IH]; intros Hflag; [reflexivity|].
  cbn [map fold_right filter].
  rewrite IH by (intros r' Hr'; apply Hflag; now right).
  destruct (Hflag r (or_introl eq_refl)) as [-> | ->]; simpl Z.eqb; cbv iota.
  - cbn [List.length]. lia.
  - lia.
Qed.

Lemma Risk_flag_filter_data (m : list Merged.row)
    (selected_village : string) (start_date end_date : Z) (r : JoinedRecord) :
  In r (filter_data (assign_risk m) selected_village start_date end_date) ->
  Risk r = 1 \/ Risk r = 0.
Proof.
  intros Hin. apply In_filter_data in Hin as [Hin _].
  destruct (In_assign_risk m r Hin) as (x & _ & _ & _ & _ & ->).
  apply risk_lambda_flag.
Qed.


(** ** Total_Cases adds up to the size of the frame *)

Lemma sum_map_add {A : Type} (f g : A -> Z) (l : list A) :
  sum (map (fun k => f k + g k) l) = sum (map f l) + sum (map g l).
Proof.
  unfold sum. induction l; simpl; lia.
Qed.

(** Among keys without repetition, exactly one equals a key of the list. *)
Lemma sum_indicator (keys : list string) (k : string) :
  NoDup keys -> In k keys ->
  sum (map (fun k' => if String.eqb k k' then 1 else 0) keys) = 1.
Proof.
  unfold sum. induction 1 as [|k0 keys Hk0 Hnd IH]; simpl; [tauto|].
  intros [-> | Hin].
  - rewrite String.eqb_refl.
    assert (fold_right Z.add 0
              (map (fun k' => if String.eqb k k' then 1 else 0) keys) = 0) as ->; [|lia].
    clear IH Hnd. induction keys as [|k1 keys IH]; simpl; [reflexivity|].
    destruct (String.eqb_spec k k1) as [->|_].
    + exfalso. apply Hk0. now left.
    + rewrite IH; [reflexivity|]. intros H. apply Hk0. now right.
  - destruct (String.eqb_spec k k0) as [->|_]; [contradiction|].
    rewrite IH by exact Hin. reflexivity.
Qed.

Lemma sum_group_sizes (df : list JoinedRecord) (keys : list string) :
  NoDup keys -> (forall r, In r df -> In (Location r) keys) ->
  sum (map (fun key => Z.of_nat (List.length (get_group df key))) keys)
  = Z.of_nat (List.length df).
Proof.
  intros Hnd. induction df as [|r df IH]; intros Hkeys.
  - unfold sum. simpl. clear. induction keys; simpl; auto.
  - rewrite (map_ext _ (fun key =>
        (if String.eqb (Location r) key then 1 else 0)
        + Z.of_nat (List.length (get_group df key)))).
    + rewrite sum_map_add, IH, sum_indicator; auto.
      * simpl List.length. lia.
      * apply Hkeys. now left.
      * intros r' Hr'. apply Hkeys. now right.
    + intros key. unfold get_group. simpl.
      destruct (String.eqb (Location r) key); simpl List.length; lia.
Qed.

Lemma sum_Total_Cases (df : list JoinedRecord) :
  sum (map Total_Cases (summary df)) = Z.of_nat (List.length df).
Proof.
  unfold summary. rewrite map_map. cbn [Total_Cases].
  rewrite (map_ext _ (fun key => Z.of_nat (List.length (get_group df key))))
    by (intros key; unfold count; now rewrite length_map).
  apply sum_group_sizes; [apply NoDup_group_keys|].
  intros r Hr. apply In_group_keys, in_map, Hr.
Qed.

(** C6. The Total_Cases of the summary of a filtered frame add up to the
    number of records of the filtered frame. *)
Theorem total_cases_sum_to_filtered_count (data : list JoinedRecord)
    (selected_village : string) (start_date end_date : Z) :
  sum (map Total_Cases
         (summary (filter_data data selected_village start_date end_date)))
  = Z.of_nat (List.length (filter_data data selected_village start_date end_date)).
Proof. apply sum_Total_Cases. Qed.

(** C10. The rows of the summary come in strictly ascending order of their
    location, compared as strings; this is not the order in which the
    locations first appear in the frame. *)
Theorem summary_sorted_by_location :
  (forall df,
     StronglySorted (fun a b => String.ltb a b = true) (map sLocation (summary df)))
  /\ (exists df, map sLocation (summary df) <> unique (map Location df)).
Proof.
  split.
  - intros df. rewrite summary_locations.
    apply StronglySorted_strict; [apply group_keys_sorted | apply NoDup_group_keys].
  - exists [mkJoined 1 30 "Fever" "Tripura" 0 (7 # 1) (10 # 1) 100 0;
            mkJoined 2 41 "Fever" "Assam" 0 (6 # 1) (20 # 1) 200 0].
    vm_compute. discriminate.
Qed.

(** ** The merge *)

Lemma In_inner_join (left : list HealthDf.row) (right : list WaterDf.row)
    (x : Merged.row) :
  In x (inner_join left right) <->
  exists h w, In h left /\ In w right
              /\ WaterDf.Location w = HealthDf.Location h /\ x = attach h w.
Proof.
  unfold inner_join, matches. rewrite in_flat_map. split.
  - intros (h & Hh & Hx). apply in_map_iff in Hx as (w & <- & Hw).
    apply filter_In in Hw as [Hw Hloc]. apply String.eqb_eq in Hloc.
    exists h, w. auto.
  - intros (h & w & Hh & Hw & Hloc & ->). exists h. split; [exact Hh|].
    apply in_map, filter_In. split; [exact Hw|]. now apply String.eqb_eq.
Qed.

Lemma length_matches (h : HealthDf.row) (right : list WaterDf.row) :
  List.length (matches h right)
  = count_occ string_dec (map WaterDf.Location right) (HealthDf.Location h).
Proof.
  unfold matches. induction right as [|w right IH]; simpl; [reflexivity|].
  destruct (String.eqb_spec (WaterDf.Location w) (HealthDf.Location h)) as [E|E];
    destruct (string_dec (WaterDf.Location w) (HealthDf.Location h)) as [E'|E'];
    try contradiction; simpl; now rewrite IH.
Qed.

Lemma length_inner_join (left : list HealthDf.row) (right : list WaterDf.row) :
  List.length (inner_join left right)
  = list_sum (map (fun h => count_occ string_dec (map WaterDf.Location right)
                                      (HealthDf.Location h)) left).
Proof.
  unfold inner_join. induction left as [|h left IH]; simpl; [reflexivity|].
  now rewrite length_app, length_map, length_matches, IH.
Qed.

(** C5. The merge of the script always returns a frame; every row of it is a
    health record together with the pH, Turbidity and Bacterial_Count of a
    water sample of the same location, so its location is one of the water
    frame; every such pair is a row; and a health record whose location has no
    water sample leaves no row, without an error. *)
Theorem merge_is_inner_join (health_df : list HealthDf.row)
    (water_df : list WaterDf.row) :
  exists merged,
    pd_merge None health_df water_df = Ok merged
    /\ (forall x,
          In x merged ->
          In (Merged.Location x) (map WaterDf.Location water_df)
          /\ exists h w,
               In h health_df /\ In w water_df
               /\ WaterDf.Location w = Merged.Location x
               /\ HealthDf.Location h = Merged.Location x
               /\ Merged.Patient_ID x = HealthDf.Patient_ID h
               /\ Merged.pH x = WaterDf.pH w
               /\ Merged.Turbidity x = WaterDf.Turbidity w
               /\ Merged.Bacterial_Count x = WaterDf.Bacterial_Count w)
    /\ (forall h w,
          In h health_df -> In w water_df ->
          WaterDf.Location w = HealthDf.Location h -> In (attach h w) merged)
    /\ (forall h,
          In h health_df ->
          ~ In (HealthDf.Location h) (map WaterDf.Location water_df) ->
          forall x, In x merged -> Merged.Location x <> HealthDf.Location h).
Proof.
  exists (inner_join health_df water_df). split; [reflexivity|].
  assert (forall x, In x (inner_join health_df water_df) ->
                    In (Merged.Location x) (map WaterDf.Location water_df)) as Hloc.
  { intros x Hx. apply In_inner_join in Hx as (h & w & _ & Hw & E & ->).
    simpl. rewrite <- E. now apply in_map. }
  split; [|split].
  - intros x Hx. split; [now apply Hloc|].
    apply In_inner_join in Hx as (h & w & Hh & Hw & E & ->).
    exists h, w. simpl. auto 10.
  - intros h w Hh Hw E. apply In_inner_join. exists h, w. auto.
  - intros h _ Hno x Hx E. apply Hno. rewrite <- E. now apply Hloc.
Qed.

(** C3, as the script has it. The merge never raises, whatever the water
    frame holds: a health record is joined with every water sample of its
    location, so with two samples of one location it occurs twice, and the
    merged frame has as many rows as there are such pairs. *)
Theorem merge_pairs_every_sample (health_df : list HealthDf.row)
    (water_df : list WaterDf.row) :
  exists merged,
    pd_merge None health_df water_df = Ok merged
    /\ (forall h w,
          In h health_df -> In w water_df ->
          WaterDf.Location w = HealthDf.Location h -> In (attach h w) merged)
    /\ List.length merged
       = list_sum (map (fun h => count_occ string_dec
                                   (map WaterDf.Location water_df)
                                   (HealthDf.Location h)) health_df).
Proof.
  exists (inner_join health_df water_df). split; [reflexivity|]. split.
  - intros h w Hh Hw E. apply In_inner_join. exists h, w. auto.
  - apply length_inner_join.
Qed.

(** ** The CSV text read back *)




(** *** The steps of the reader that the written text takes *)












(** *** Fields *)







(** *** Records *)

Lemma join_cons2 (sep x y : string) (rest : list string) :
  Str.join sep (x :: y :: rest) = (x ++ sep ++ Str.join sep (y :: rest))%string.
Proof. reflexivity. Qed.






(** ** The downloads *)

Lemma filter_none {A : Type} (f : A -> bool) (l : list A) :
  (forall x, In x l -> f x = false) -> filter f l = [].
Proof.
  induction l as [|x l IH]; intros H; simpl; [reflexivity|].
  rewrite (H x (or_introl eq_refl)). apply IH. intros y Hy. apply H. now right.
Qed.

Section Exports.

Variable repr_date : Z -> string.
Variable repr_float : Q -> string.


(** C7. When no record of the dataset matches the request, [filter_data]
    returns the empty frame, its summary is the empty frame, and the raw
    download is the header line alone, which reads back as the one record of
    the column names; the summary download is its header line alone. *)
Theorem no_match_is_empty_result (data : list JoinedRecord)
    (selected_village : string) (start_date end_date : Z) :
  (forall r, In r data ->
             ~ ((selected_village = "All" \/ Location r = selected_village)
                /\ start_date <= Date r <= end_date)) ->
  filter_data data selected_village start_date end_date = []
  /\ summary (filter_data data selected_village start_date end_date) = []
  /\ download_raw repr_date repr_float data selected_village start_date end_date
     = (Str.join "," raw_columns ++ Csv.lineterminator)%string
  /\ Csv.reader (download_raw repr_date repr_float
                   data selected_village start_date end_date)
     = [raw_columns]
  /\ download_summary repr_float
       data selected_village start_date end_date
     = (Str.join "," summary_columns ++ Csv.lineterminator)%string.
Proof.
  intros Hno.
  assert (filter_data data selected_village start_date end_date = []) as E.
  { rewrite filter_data_one_pass. apply filter_none. intros r Hr.
    destruct (request_matches selected_village start_date end_date r) eqn:Hm;
      [|reflexivity].
    apply request_matches_true in Hm. exfalso. exact (Hno r Hr Hm). }
  unfold download_raw, download_summary. rewrite E.
  repeat split; reflexivity.
Qed.

End Exports.

(** ** Instances *)

Lemma risk_iff_diarrhea_or_bacterial_count_witness :
  let r := mkJoined 1 34 "Fever,Diarrhea" "Assam" 19000 (72 # 10) (35 # 1) 120 1 in
  Risk r = 1 <-> In "Diarrhea" ["Fever"; "Diarrhea"] \/ Bacterial_Count r > 300.
Proof.
  apply (risk_iff_diarrhea_or_bacterial_count example_merged).
  - left. reflexivity.
  - reflexivity.
  - intros s [<- | [<- | []]]; simpl; auto.
Defined.

Lemma no_match_is_empty_result_witness :
  filter_data example_data "Sikkim" 18990 19020 = []
  /\ summary (filter_data example_data "Sikkim" 18990 19020) = []
  /\ download_raw repr_int (fun q => repr_int (Qnum q)) example_data "Sikkim" 18990 19020
     = (Str.join "," raw_columns ++ Csv.lineterminator)%string
  /\ Csv.reader (download_raw repr_int (fun q => repr_int (Qnum q))
                   example_data "Sikkim" 18990 19020)
     = [raw_columns]
  /\ download_summary (fun q => repr_int (Qnum q))
       example_data "Sikkim" 18990 19020
     = (Str.join "," summary_columns ++ Csv.lineterminator)%string.
Proof.
  apply (no_match_is_empty_result repr_int (fun q => repr_int (Qnum q))
           example_data "Sikkim" 18990 19020).
  intros r [<- | [<- | []]] [[H | H] _]; discriminate H.
Defined.

(** The merge of a water frame with two samples of Assam returns a frame,
    in which the health record of Assam stands twice. *)
Lemma merge_duplicate_water_locations_returns :
  is_unique (map WaterDf.Location duplicate_water) = false
  /\ pd_merge None [HealthDf.mk 1 34 "Fever,Diarrhea" "Assam" 19000] duplicate_water
     = Ok [Merged.mk 1 34 "Fever,Diarrhea" "Assam" 19000 (72 # 10) (35 # 1) 120;
           Merged.mk 1 34 "Fever,Diarrhea" "Assam" 19000 (68 # 10) (40 # 1) 90]
  /\ forall e,
       pd_merge None [HealthDf.mk 1 34 "Fever,Diarrhea" "Assam" 19000] duplicate_water
       <> Raise e.
Proof. repeat split. discriminate. Qed.

(** The test of [risk_lambda] is a search in the Symptoms text: a symptom name
    outside [symptoms_list] that holds the word is found too. *)
Remark risk_lambda_searches_text :
  risk_lambda (Merged.mk 1 34 "Bloody Diarrhea" "Assam" 19000 (72 # 10) (35 # 1) 120) = 1.
Proof. reflexivity. Qed.

(** The village of the script is written sikkim, and it sorts after the
    capitalised names. *)
Example summary_example :
  map (fun row => (sLocation row, Total_Cases row, High_Risk_Cases row))
      (summary example_data)
  = [("Assam", 1, 1); ("sikkim", 1, 1)].
Proof. reflexivity. Qed.

Example writerow_quotes_symptoms :
  Csv.writerow ["1"; "Fever,Diarrhea"; "Assam"]
  = ("1," ++ String Csv.quotechar "Fever,Diarrhea"
      ++ String Csv.quotechar ",Assam" ++ Csv.lineterminator)%string.
Proof. reflexivity. Qed.

(** * Further properties of the script *)

(** ** The generated frames *)

Lemma health_records_from_ids (today : Z) (draws : list health_draw) :
  forall (i : Z) (k : nat), i = Z.of_nat k ->
    map HealthDf.Patient_ID (health_records_from today i draws)
    = map Z.of_nat (seq k (List.length draws)).
Proof.
  induction draws as [|d draws IH]; intros i k Hi; simpl; [reflexivity|].
  rewrite Hi at 1. f_equal. apply IH. lia.
Qed.


(** X1. The generated health records carry the patient numbers 1, 2, ... in
    the order of the loop, one record per draw. *)
Theorem generated_patient_ids (today : Z) (draws : list health_draw) :
  map HealthDf.Patient_ID (health_records today draws)
  = map Z.of_nat (seq 1 (List.length draws))
  /\ List.length (health_records today draws) = List.length draws.
Proof.
  unfold health_records. split.
  - now apply health_records_from_ids.
  - rewrite <- (length_map HealthDf.Patient_ID).
    rewrite (health_records_from_ids today draws 1 1%nat eq_refl).
    now rewrite length_map, length_seq.
Qed.

Lemma water_records_for_locations (vs : list string) :
  forall draws, List.length draws = List.length vs ->
    map WaterDf.Location (water_records_for vs draws) = vs.
Proof.
  induction vs as [|v vs IH]; intros [|d draws] Hlen; simpl in *;
    try reflexivity; try discriminate.
  f_equal. apply IH. lia.
Qed.

Lemma NoDup_villages : NoDup villages.
Proof.
  unfold villages. repeat constructor; simpl; intuition discriminate.
Qed.

(** X2. With one draw per village, the water frame has exactly the villages
    as its locations, in their order and each once. *)
Theorem generated_water_locations (draws : list water_draw) :
  List.length draws = List.length villages ->
  map WaterDf.Location (water_records draws) = villages
  /\ NoDup (map WaterDf.Location (water_records draws)).
Proof.
  intros Hlen. unfold water_records.
  rewrite (water_records_for_locations villages draws Hlen).
  split; [reflexivity | apply NoDup_villages].
Qed.

(** ** The merge on unique keys *)

Lemma matches_none (h : HealthDf.row) (right : list WaterDf.row) :
  ~ In (HealthDf.Location h) (map WaterDf.Location right) -> matches h right = [].
Proof.
  intros Hno. unfold matches. apply filter_none. intros w Hw.
  apply String.eqb_neq. intros E. apply Hno. rewrite <- E. now apply in_map.
Qed.

Lemma matches_unique (h : HealthDf.row) (right : list WaterDf.row) (w : WaterDf.row) :
  NoDup (map WaterDf.Location right) -> In w right ->
  WaterDf.Location w = HealthDf.Location h -> matches h right = [w].
Proof.
  induction right as [|w0 right IH]; intros Hnd Hin E; [contradiction|].
  simpl in Hnd. apply NoDup_cons_iff in Hnd as [Hw0 Hnd].
  change (matches h (w0 :: right))
    with (if String.eqb (WaterDf.Location w0) (HealthDf.Location h)
          then w0 :: matches h right else matches h right).
  destruct Hin as [-> | Hin].
  - rewrite E, String.eqb_refl. f_equal. apply matches_none. now rewrite <- E.
  - destruct (String.eqb_spec (WaterDf.Location w0) (HealthDf.Location h)) as [E0|_].
    + exfalso. apply Hw0. rewrite E0, <- E. now apply in_map.
    + now apply IH.
Qed.

Lemma inner_join_unique_keys (health_df : list HealthDf.row)
    (water_df : list WaterDf.row) :
  NoDup (map WaterDf.Location water_df) ->
  (forall h, In h health_df ->
             In (HealthDf.Location h) (map WaterDf.Location water_df)) ->
  Forall2 (fun h x => exists w, In w water_df
                                /\ WaterDf.Location w = HealthDf.Location h
                                /\ x = attach h w)
          health_df (inner_join health_df water_df).
Proof.
  intros Hnd Hall. unfold inner_join.
  induction health_df as [|h health_df IH]; simpl; [constructor|].
  destruct (proj1 (in_map_iff _ _ _) (Hall h (or_introl eq_refl)))
    as (w & E & Hw).
  rewrite (matches_unique h water_df w Hnd Hw E). simpl.
  constructor.
  - exists w. auto.
  - apply IH. intros h' Hh'. apply Hall. now right.
Qed.

(** X3. When the locations of the water frame are distinct and hold the
    location of every health record, the merge returns one row per health
    record, in the order of the health frame, each with the sample of its
    location. *)
Theorem merge_one_row_per_record (health_df : list HealthDf.row)
    (water_df : list WaterDf.row) :
  NoDup (map WaterDf.Location water_df) ->
  (forall h, In h health_df ->
             In (HealthDf.Location h) (map WaterDf.Location water_df)) ->
  exists merged,
    pd_merge None health_df water_df = Ok merged
    /\ Forall2 (fun h x => exists w, In w water_df
                                     /\ WaterDf.Location w = HealthDf.Location h
                                     /\ x = attach h w)
               health_df merged.
Proof.
  intros Hnd Hall. exists (inner_join health_df water_df).
  split; [reflexivity|]. now apply inner_join_unique_keys.
Qed.




(** ** Requests *)

Lemma filter_all {A : Type} (f : A -> bool) (l : list A) :
  (forall x, In x l -> f x = true) -> filter f l = l.
Proof.
  induction l as [|x l IH]; intros H; simpl; [reflexivity|].
  rewrite (H x (or_introl eq_refl)). f_equal. apply IH. intros y Hy. apply H. now right.
Qed.

Lemma request_matches_both (location : string) (s1 e1 s2 e2 : Z)
    (r : JoinedRecord) :
  request_matches location s1 e1 r && request_matches location s2 e2 r
  = request_matches location (Z.max s1 s2) (Z.min e1 e2) r.
Proof.
  apply eq_true_iff_eq.
  rewrite andb_true_iff, !request_matches_true. intuition lia.
Qed.

(** X5. Filtering a filtered frame again for the same village keeps the
    records inside both date ranges: it is the request with the later start
    and the earlier end. Repeating a request changes nothing. *)
Theorem filter_data_twice (data : list JoinedRecord) (selected_village : string)
    (s1 e1 s2 e2 : Z) :
  filter_data (filter_data data selected_village s1 e1) selected_village s2 e2
  = filter_data data selected_village (Z.max s1 s2) (Z.min e1 e2)
  /\ filter_data (filter_data data selected_village s1 e1) selected_village s1 e1
     = filter_data data selected_village s1 e1.
Proof.
  assert (forall a b c d,
            filter_data (filter_data data selected_village a b) selected_village c d
            = filter_data data selected_village (Z.max a c) (Z.min b d)) as H.
  { intros a b c d. rewrite !filter_data_one_pass, filter_twice.
    apply filter_ext. intros r. apply request_matches_both. }
  split; [apply H|].
  rewrite H, Z.max_id, Z.min_id. reflexivity.
Qed.

Lemma fold_min_le (rest : list Z) :
  forall d x, In x (d :: rest) -> fold_left Z.min rest d <= x.
Proof.
  induction rest as [|y rest IH]; intros d x Hin; simpl.
  - destruct Hin as [-> | []]. lia.
  - destruct Hin as [-> | [-> | Hin]].
    + specialize (IH (Z.min x y) (Z.min x y) (or_introl eq_refl)). lia.
    + specialize (IH (Z.min d x) (Z.min d x) (or_introl eq_refl)). lia.
    + apply IH. now right.
Qed.

Lemma fold_max_ge (rest : list Z) :
  forall d x, In x (d :: rest) -> x <= fold_left Z.max rest d.
Proof.
  induction rest as [|y rest IH]; intros d x Hin; simpl.
  - destruct Hin as [-> | []]. lia.
  - destruct Hin as [-> | [-> | Hin]].
    + specialize (IH (Z.max x y) (Z.max x y) (or_introl eq_refl)). lia.
    + specialize (IH (Z.max d x) (Z.max d x) (or_introl eq_refl)). lia.
    + apply IH. now right.
Qed.

(** X6. The view the dashboard opens with: the village All and the date
    picker set to the least and the greatest date of [data] select every row
    of [data]; the two bounds are missing only when [data] has no row. *)
Theorem default_request_selects_all (data : list JoinedRecord) :
  match column_min (map Date data), column_max (map Date data) with
  | Some start_date, Some end_date =>
      filter_data data "All" start_date end_date = data
  | _, _ => data = []
  end.
Proof.
  destruct data as [|r data]; [reflexivity|].
  cbn [map column_min column_max].
  rewrite filter_data_one_pass. apply filter_all.
  intros x Hx. apply request_matches_true. split; [now left|].
  apply (in_map Date) in Hx. cbn [map] in Hx.
  split; [now apply fold_min_le | now apply fold_max_ge].
Qed.

Lemma village_not_All (v : string) :
  In v villages -> String.eqb v "All" = false.
Proof.
  unfold villages. simpl. intros H.
  repeat destruct H as [<- | H]; try reflexivity. contradiction.
Qed.

Lemma filter_data_village (data : list JoinedRecord) (v : string)
    (start_date end_date : Z) :
  String.eqb v "All" = false ->
  filter_data data v start_date end_date
  = get_group (filter_data data "All" start_date end_date) v.
Proof.
  intros Hv. unfold filter_data, get_group. rewrite Hv. simpl.
  rewrite !filter_twice. apply filter_ext. intros r. apply andb_comm.
Qed.

(** X7. The village options split the All view: when every record of the
    dataset lies in one of [villages], the numbers of records shown for the
    five villages add up to the number shown for All, for any date range. *)
Theorem village_views_partition_all (data : list JoinedRecord)
    (start_date end_date : Z) :
  (forall r, In r data -> In (Location r) villages) ->
  sum (map (fun v => Z.of_nat (List.length (filter_data data v start_date end_date)))
           villages)
  = Z.of_nat (List.length (filter_data data "All" start_date end_date)).
Proof.
  intros Hloc.
  rewrite (map_ext_in _
             (fun v => Z.of_nat (List.length
                         (get_group (filter_data data "All" start_date end_date) v)))).
  - apply sum_group_sizes; [apply NoDup_villages|].
    intros r Hr. apply Hloc. now apply In_filter_data in Hr as [Hr _].
  - intros v Hv. now rewrite (filter_data_village data v _ _ (village_not_All v Hv)).
Qed.

(** ** The summary of the script's data *)

Lemma In_build_data (health_df : list HealthDf.row) (water_df : list WaterDf.row)
    (data : list JoinedRecord) (r : JoinedRecord) :
  build_data health_df water_df = Ok data -> In r data ->
  exists h w, In h health_df /\ In w water_df
              /\ WaterDf.Location w = Location r
              /\ pH r = WaterDf.pH w
              /\ Bacterial_Count r = WaterDf.Bacterial_Count w
              /\ Risk r = risk_lambda (attach h w).
Proof.
  unfold build_data, pd_merge. intros E Hr. injection E as <-.
  unfold assign_risk in Hr. apply in_map_iff in Hr as (x & <- & Hx).
  apply In_inner_join in Hx as (h & w & Hh & Hw & El & ->).
  exists h, w. simpl. auto 10.
Qed.

Lemma NoDup_map_inj {A B : Type} (f : A -> B) (l : list A) (a b : A) :
  NoDup (map f l) -> In a l -> In b l -> f a = f b -> a = b.
Proof.
  induction l as [|x l IH]; intros Hnd Ha Hb E; [contradiction|].
  simpl in Hnd. apply NoDup_cons_iff in Hnd as [Hx Hnd].
  destruct Ha as [-> | Ha], Hb as [-> | Hb]; auto.
  - exfalso. apply Hx. rewrite E. now apply in_map.
  - exfalso. apply Hx. rewrite <- E. now apply in_map.
Qed.

(** With distinct water locations, a record of [data] carries the sample of
    its location. *)
Lemma data_carries_sample (health_df : list HealthDf.row)
    (water_df : list WaterDf.row) (data : list JoinedRecord)
    (w : WaterDf.row) (r : JoinedRecord) :
  NoDup (map WaterDf.Location water_df) -> In w water_df ->
  build_data health_df water_df = Ok data -> In r data ->
  Location r = WaterDf.Location w ->
  pH r = WaterDf.pH w
  /\ Bacterial_Count r = WaterDf.Bacterial_Count w
  /\ (WaterDf.Bacterial_Count w > 300 -> Risk r = 1).
Proof.
  intros Hnd Hw E Hr El.
  destruct (In_build_data _ _ _ r E Hr) as (h & w' & _ & Hw' & El' & HpH & Hb & Hrisk).
  assert (w' = w) as -> by
    (apply (NoDup_map_inj WaterDf.Location water_df); auto; congruence).
  repeat split; auto.
  intros Hgt. rewrite Hrisk. unfold risk_lambda. simpl.
  assert ((300 <? WaterDf.Bacterial_Count w) = true) as -> by (apply Z.ltb_lt; lia).
  now rewrite orb_true_r.
Qed.

Lemma In_get_group_filter_data (data : list JoinedRecord) (v : string)
    (start_date end_date : Z) (key : string) (r : JoinedRecord) :
  In r (get_group (filter_data data v start_date end_date) key) ->
  In r data /\ Location r = key.
Proof.
  unfold get_group. rewrite filter_In, String.eqb_eq.
  intros [Hr El]. apply In_filter_data in Hr. tauto.
Qed.

Lemma sum_all_ones (group : list JoinedRecord) :
  (forall r, In r group -> Risk r = 1) ->
  sum (map Risk group) = Z.of_nat (List.length group).
Proof.
  unfold sum. induction group as [|r group IH]; intros H; [reflexivity|].
  cbn [map fold_right List.length].
  rewrite IH by (intros r' Hr'; apply H; now right).
  rewrite (H r (or_introl eq_refl)). lia.
Qed.

(** X8. In the data of the script, built on a water frame with distinct
    locations, every patient of a village whose Bacterial_Count is above 300
    is at risk: in the summary of any request the row of that village has
    High_Risk_Cases equal to Total_Cases. *)
Theorem polluted_village_all_high_risk (health_df : list HealthDf.row)
    (water_df : list WaterDf.row) (data : list JoinedRecord) (w : WaterDf.row)
    (selected_village : string) (start_date end_date : Z) (row : SummaryRow) :
  NoDup (map WaterDf.Location water_df) ->
  build_data health_df water_df = Ok data ->
  In w water_df -> WaterDf.Bacterial_Count w > 300 ->
  In row (summary (filter_data data selected_village start_date end_date)) ->
  sLocation row = WaterDf.Location w ->
  High_Risk_Cases row = Total_Cases row.
Proof.
  intros Hnd E Hw Hgt Hrow El.
  destruct (In_summary _ row Hrow) as (_ & Htotal & Hrisk & _).
  rewrite Htotal, Hrisk. unfold count. rewrite length_map.
  apply sum_all_ones. intros r Hr.
  apply In_get_group_filter_data in Hr as [Hr Hloc].
  apply (data_carries_sample health_df water_df data w r); auto. congruence.
Qed.




Lemma length_filter_le {A : Type} (f : A -> bool) (l : list A) :
  (List.length (filter f l) <= List.length l)%nat.
Proof.
  induction l as [|x l IH]; simpl; [lia|]. destruct (f x); simpl; lia.
Qed.

(** X10. In the summary of a request on classified data every row counts at
    least one case, and its high-risk cases are between zero and its total. *)
Theorem summary_counts_bounded (m : list Merged.row)
    (selected_village : string) (start_date end_date : Z) :
  Forall (fun row => 1 <= Total_Cases row
                     /\ 0 <= High_Risk_Cases row <= Total_Cases row)
         (summary (filter_data (assign_risk m) selected_village start_date end_date)).
Proof.
  apply Forall_forall. intros row Hrow.
  destruct (In_summary _ row Hrow) as (Hkey & Htotal & Hrisk & _).
  apply In_group_keys, get_group_nonempty in Hkey.
  rewrite Htotal, Hrisk. unfold count. rewrite length_map.
  rewrite sum_Risk_counts.
  - pose proof (length_filter_le at_risk
                  (get_group (filter_data (assign_risk m) selected_village
                                          start_date end_date) (sLocation row))) as Hle.
    destruct (get_group _ (sLocation row)) as [|r g]; [contradiction|].
    cbn [List.length] in *. lia.
  - intros r Hr. apply In_get_group_filter_data in Hr as [Hr _].
    destruct (In_assign_risk m r Hr) as (x & _ & _ & _ & _ & ->).
    apply risk_lambda_flag.
Qed.

(** ** The bars of the High-Risk tab *)

Lemma sum_indicator_weight (keys : list string) (k : string) (weight : Z) :
  NoDup keys -> In k keys ->
  sum (map (fun k' => if String.eqb k k' then weight else 0) keys) = weight.
Proof.
  intros Hnd Hin.
  rewrite (map_ext _ (fun k' => weight * (if String.eqb k k' then 1 else 0)))
    by (intros k'; destruct (String.eqb k k'); lia).
  assert (forall l, sum (map (fun k' => weight * (if String.eqb k k' then 1 else 0)) l)
                    = weight * sum (map (fun k' => if String.eqb k k' then 1 else 0) l))
    as Hmul by (unfold sum; induction l; simpl; lia).
  rewrite Hmul, sum_indicator by assumption. lia.
Qed.

(** Summing a column group by group gives the sum of the column. *)
Lemma sum_group_weights (f : JoinedRecord -> Z) (df : list JoinedRecord)
    (keys : list string) :
  NoDup keys -> (forall r, In r df -> In (Location r) keys) ->
  sum (map (fun key => sum (map f (get_group df key))) keys) = sum (map f df).
Proof.
  intros Hnd. induction df as [|r df IH]; intros Hkeys.
  - unfold sum. simpl. clear. induction keys; simpl; auto.
  - rewrite (map_ext _ (fun key =>
        (if String.eqb (Location r) key then f r else 0)
        + sum (map f (get_group df key)))).
    + rewrite sum_map_add, IH, sum_indicator_weight; auto.
      * apply Hkeys. now left.
      * intros r' Hr'. apply Hkeys. now right.
    + intros key. unfold get_group, sum. simpl.
      destruct (String.eqb (Location r) key); simpl; lia.
Qed.

(** X11. The bars of the High-Risk tab are the Location and High_Risk_Cases
    columns of the summary table of the same request, and on classified data
    they add up to the number of records at risk in the filtered frame. *)
Theorem risk_count_agrees_with_summary (m : list Merged.row)
    (selected_village : string) (start_date end_date : Z) :
  let df := filter_data (assign_risk m) selected_village start_date end_date in
  risk_count df = map (fun row => (sLocation row, High_Risk_Cases row)) (summary df)
  /\ sum (map snd (risk_count df)) = Z.of_nat (List.length (filter at_risk df)).
Proof.
  intros df. split.
  - unfold risk_count, summary. now rewrite map_map.
  - unfold risk_count. rewrite map_map. cbn [snd].
    rewrite sum_group_weights.
    + apply sum_Risk_counts. intros r Hr.
      exact (Risk_flag_filter_data m _ _ _ r Hr).
    + apply NoDup_group_keys.
    + intros r Hr. apply In_group_keys, in_map, Hr.
Qed.

(** ** The summary and the order of the records *)

Lemma sum_map_Permutation {A : Type} (f : A -> Z) (l l' : list A) :
  Permutation l l' -> sum (map f l) = sum (map f l').
Proof. unfold sum. induction 1; simpl; lia. Qed.







(** ** Splitting the Symptoms text *)

Lemma str_split_cons (c : ascii) (rest : string) :
  Ascii.eqb c ","%char = false ->
  str_split "," (String c rest)
  = match str_split "," rest with
    | [] => [String c EmptyString]
    | part :: parts => String c part :: parts
    end.
Proof. intros H. cbn [str_split]. now rewrite H. Qed.

Lemma str_split_part (p text : string) :
  Str.mem "," p = false ->
  str_split "," (p ++ String "," text) = p :: str_split "," text.
Proof.
  induction p as [|c p IH]; intros Hc.
  - reflexivity.
  - cbn [Str.mem] in Hc. apply orb_false_elim in Hc as [Hc Hp].
    rewrite Ascii.eqb_sym in Hc.
    change (String c p ++ String "," text)%string
      with (String c (p ++ String "," text)).
    rewrite (str_split_cons c _ Hc), (IH Hp). reflexivity.
Qed.

Lemma str_split_last (p : string) :
  Str.mem "," p = false -> str_split "," p = [p].
Proof.
  induction p as [|c p IH]; intros Hc.
  - reflexivity.
  - cbn [Str.mem] in Hc. apply orb_false_elim in Hc as [Hc Hp].
    rewrite Ascii.eqb_sym in Hc.
    rewrite (str_split_cons c _ Hc), (IH Hp). reflexivity.
Qed.

Lemma str_split_nonempty (text : string) : str_split "," text <> [].
Proof.
  destruct text as [|c rest]; [discriminate|]. cbn [str_split].
  destruct (Ascii.eqb c ","); [discriminate|].
  destruct (str_split "," rest); discriminate.
Qed.

Lemma join_split (text : string) : Str.join "," (str_split "," text) = text.
Proof.
  induction text as [|c rest IH]; [reflexivity|].
  cbn [str_split]. destruct (Ascii.eqb_spec c ","%char) as [-> | _].
  - pose proof (str_split_nonempty rest) as Hne.
    destruct (str_split "," rest) as [|p ps] eqn:E; [contradiction|].
    rewrite join_cons2. cbn [append]. f_equal. exact IH.
  - destruct (str_split "," rest) as [|p ps] eqn:E.
    + now destruct (str_split_nonempty rest).
    + destruct ps as [|q ps].
      * cbn [Str.join String.concat] in *. now rewrite IH.
      * rewrite join_cons2. cbn [append]. f_equal. exact IH.
Qed.

(** X13. Splitting at the comma undoes the join of line 20: a sample that is
    not empty and whose names hold no comma is given back by the split of its
    joined text; and joining the parts of any text gives the text back. *)
Theorem split_join_round_trip (sample : list string) :
  sample <> [] ->
  (forall s, In s sample -> Str.mem "," s = false) ->
  str_split "," (Str.join "," sample) = sample
  /\ forall text, Str.join "," (str_split "," text) = text.
Proof.
  intros Hne Hc. split; [|apply join_split].
  induction sample as [|s sample IH]; [contradiction|].
  destruct sample as [|s' sample].
  - apply str_split_last, Hc. now left.
  - rewrite join_cons2. cbn [append].
    rewrite str_split_part by (apply Hc; now left).
    f_equal. apply IH; [discriminate|]. intros x Hx. apply Hc. now right.
Qed.

(** ** The slices of the Symptoms tab *)

Lemma count_occ_indicator (l : list string) (x k : string) :
  Z.of_nat (count_occ string_dec (x :: l) k)
  = (if String.eqb x k then 1 else 0) + Z.of_nat (count_occ string_dec l k).
Proof.
  simpl. destruct (string_dec x k) as [E | E];
    destruct (String.eqb_spec x k); try contradiction; lia.
Qed.

(** The numbers of occurrences of the distinct values add up to the length. *)
Lemma sum_count_occ (l : list string) (keys : list string) :
  NoDup keys -> (forall x, In x l -> In x keys) ->
  sum (map (fun k => Z.of_nat (count_occ string_dec l k)) keys)
  = Z.of_nat (List.length l).
Proof.
  intros Hnd. induction l as [|x l IH]; intros Hkeys.
  - unfold sum. simpl. clear. induction keys; simpl; auto.
  - rewrite (map_ext _ (fun k => (if String.eqb x k then 1 else 0)
                                 + Z.of_nat (count_occ string_dec l k)))
      by (intros k; apply count_occ_indicator).
    rewrite sum_map_add, IH, sum_indicator; auto.
    + cbn [List.length]. lia.
    + apply Hkeys. now left.
    + intros y Hy. apply Hkeys. now right.
Qed.

(** In a list of lists without repetition, a value occurs as often as there
    are lists that hold it. *)
Lemma count_occ_flat_map {A : Type} (parts : A -> list string) (l : list A)
    (s : string) :
  (forall a, In a l -> NoDup (parts a)) ->
  count_occ string_dec (flat_map parts l) s
  = List.length (filter (fun a => existsb (String.eqb s) (parts a)) l).
Proof.
  induction l as [|a l IH]; intros Hnd; [reflexivity|].
  cbn [flat_map filter]. rewrite count_occ_app.
  rewrite IH by (intros b Hb; apply Hnd; now right).
  pose proof (Hnd a (or_introl eq_refl)) as Ha.
  destruct (existsb (String.eqb s) (parts a)) eqn:E.
  - apply existsb_exists in E as (x & Hx & Ex). apply String.eqb_eq in Ex. subst x.
    rewrite (proj1 (NoDup_count_occ' string_dec (parts a)) Ha s Hx).
    reflexivity.
  - rewrite (proj1 (count_occ_not_In string_dec (parts a) s)); [reflexivity|].
    intros Hin. assert (existsb (String.eqb s) (parts a) = true) as E'.
    { apply existsb_exists. exists s. split; [exact Hin | apply String.eqb_refl]. }
    congruence.
Qed.

Section SymptomsTab.

Variable sort_values : list (string * Z) -> list (string * Z).

(** The contract of [sort_values(ascending=False)]: the same rows, in
    descending order of the counts. *)
Hypothesis sort_values_Permutation :
  forall counts, Permutation counts (sort_values counts).
Hypothesis sort_values_descending :
  forall counts, StronglySorted (fun a b => snd b <= snd a) (sort_values counts).

Lemma value_counts_Permutation (values : list string) :
  Permutation
    (map (fun key => (key, Z.of_nat (count_occ string_dec values key)))
         (unique values))
    (value_counts sort_values values).
Proof. apply sort_values_Permutation. Qed.

Lemma value_counts_keys (values : list string) :
  Permutation (unique values) (map fst (value_counts sort_values values)).
Proof.
  rewrite <- (Permutation_map fst (value_counts_Permutation values)).
  rewrite map_map. cbn [fst]. now rewrite map_id.
Qed.

(** X14. The pie of the Symptoms tab, when no row names a symptom twice: it
    has one slice per symptom named in the filtered frame, the value of a
    slice is the number of rows that name its symptom, the values add up to
    the number of symptom mentions, and the slices come in descending order
    of their values. *)
Theorem symptom_counts_are_record_counts (df : list JoinedRecord) :
  (forall r, In r df -> NoDup (str_split "," (Symptoms r))) ->
  let counts := symptom_counts sort_values df in
  NoDup (map fst counts)
  /\ (forall s, In s (map fst counts) <->
                exists r, In r df /\ In s (str_split "," (Symptoms r)))
  /\ (forall s n,
        In (s, n) counts ->
        n = Z.of_nat (List.length
              (filter (fun r => existsb (String.eqb s) (str_split "," (Symptoms r)))
                      df)))
  /\ sum (map snd counts) = Z.of_nat (List.length (all_symptoms df))
  /\ StronglySorted (fun a b => snd b <= snd a) counts.
Proof.
  intros Hnd counts. subst counts. unfold symptom_counts.
  pose proof (value_counts_Permutation (all_symptoms df)) as P.
  pose proof (value_counts_keys (all_symptoms df)) as Pk.
  split; [|split; [|split; [|split]]].
  - exact (Permutation_NoDup Pk (NoDup_unique _)).
  - intros s. split.
    + intros Hs. apply (Permutation_in _ (Permutation_sym Pk)) in Hs.
      apply (proj1 (In_unique _ _)) in Hs. unfold all_symptoms in Hs.
      apply in_flat_map in Hs. exact Hs.
    + intros Hs. apply (Permutation_in _ Pk), (proj2 (In_unique _ _)).
      unfold all_symptoms. apply in_flat_map. exact Hs.
  - intros s n Hin. apply (Permutation_in _ (Permutation_sym P)) in Hin.
    apply in_map_iff in Hin as (key & E & _). injection E as -> <-.
    f_equal. unfold all_symptoms. now apply count_occ_flat_map.
  - rewrite <- (sum_map_Permutation snd _ _ P). rewrite map_map. cbn [snd].
    apply sum_count_occ; [apply NoDup_unique|].
    intros x Hx. now apply (proj2 (In_unique _ _)).
  - apply sort_values_descending.
Qed.

(** X15. The tabs show the message for an empty result exactly when no
    record of the dataset matches the request, whatever the tab; and when
    some record matches, the callback returns nothing exactly for a tab
    value other than tab1 to tab4. *)
Theorem update_tab_no_data_guard (data : list JoinedRecord)
    (tab selected_village : string) (start_date end_date : Z) :
  (update_tab sort_values data tab selected_village start_date end_date
   = Some (html_H3 "No data available for this filter.")
   <-> forall r, In r data ->
                 ~ ((selected_village = "All" \/ Location r = selected_village)
                    /\ start_date <= Date r <= end_date))
  /\ ((exists r, In r data
                 /\ (selected_village = "All" \/ Location r = selected_village)
                 /\ start_date <= Date r <= end_date) ->
      (update_tab sort_values data tab selected_village start_date end_date = None
       <-> ~ In tab ["tab1"; "tab2"; "tab3"; "tab4"])).
Proof.
  unfold update_tab.
  destruct (filter_data data selected_village start_date end_date)
    as [|r0 df] eqn:E.
  - split.
    + split; [|reflexivity]. intros _ r Hr Hm.
      assert (In r (filter_data data selected_village start_date end_date)) as Hin
        by (apply In_filter_data; tauto).
      rewrite E in Hin. exact Hin.
    + intros (r & Hr & Hm). exfalso.
      assert (In r (filter_data data selected_village start_date end_date)) as Hin
        by (apply In_filter_data; tauto).
      rewrite E in Hin. exact Hin.
  - assert (In r0 (filter_data data selected_village start_date end_date)) as Hin
      by (rewrite E; now left).
    apply In_filter_data in Hin as (Hr0 & Hm).
    split.
    + split.
      * intros H. exfalso.
        destruct (String.eqb tab "tab1"); [discriminate H|].
        destruct (String.eqb tab "tab2"); [discriminate H|].
        destruct (String.eqb tab "tab3"); [discriminate H|].
        destruct (String.eqb tab "tab4"); discriminate H.
      * intros H. exfalso. exact (H r0 Hr0 Hm).
    + intros _. simpl.
      destruct (String.eqb_spec tab "tab1");
        [split; [discriminate | intros H; exfalso; apply H; subst tab; simpl; tauto]|].
      destruct (String.eqb_spec tab "tab2");
        [split; [discriminate | intros H; exfalso; apply H; subst tab; simpl; tauto]|].
      destruct (String.eqb_spec tab "tab3");
        [split; [discriminate | intros H; exfalso; apply H; subst tab; simpl; tauto]|].
      destruct (String.eqb_spec tab "tab4");
        [split; [discriminate | intros H; exfalso; apply H; subst tab; simpl; tauto]|].
      split; [|reflexivity]. intros _ H.
      repeat destruct H as [H | H]; try (symmetry in H; contradiction).
      exact H.
Qed.

End SymptomsTab.

(** ** The summary download *)

Section SummaryExport.

Variable repr_float : Q -> string.


End SummaryExport.

(** ** Instances of the further properties *)

Lemma generated_water_locations_witness :
  map WaterDf.Location (water_records example_water_draws) = villages
  /\ NoDup (map WaterDf.Location (water_records example_water_draws)).
Proof. apply (generated_water_locations example_water_draws). reflexivity. Defined.

Lemma NoDup_example_water : NoDup (map WaterDf.Location example_water).
Proof. simpl. repeat constructor; simpl; intuition discriminate. Qed.

Lemma merge_one_row_per_record_witness :
  exists merged,
    pd_merge None (firstn 2 example_health) example_water = Ok merged
    /\ Forall2 (fun h x => exists w, In w example_water
                                     /\ WaterDf.Location w = HealthDf.Location h
                                     /\ x = attach h w)
               (firstn 2 example_health) merged.
Proof.
  apply (merge_one_row_per_record (firstn 2 example_health) example_water).
  - exact NoDup_example_water.
  - intros h [<- | [<- | []]]; simpl; auto.
Defined.


Lemma village_views_partition_all_witness :
  sum (map (fun v => Z.of_nat (List.length (filter_data example_data v 18990 19020)))
           villages)
  = Z.of_nat (List.length (filter_data example_data "All" 18990 19020)).
Proof.
  apply (village_views_partition_all example_data 18990 19020).
  intros r [<- | [<- | []]]; simpl; auto 6.
Defined.

Lemma polluted_village_all_high_risk_witness :
  High_Risk_Cases (mkSummary "sikkim" 1 1 (410 # 1) (65 # 10))
  = Total_Cases (mkSummary "sikkim" 1 1 (410 # 1) (65 # 10)).
Proof.
  apply (polluted_village_all_high_risk example_health example_water example_data
           (WaterDf.mk "sikkim" (65 # 10) (12 # 1) 410) "All" 18990 19020).
  - exact NoDup_example_water.
  - reflexivity.
  - right. left. reflexivity.
  - simpl. lia.
  - vm_compute. right. left. reflexivity.
  - reflexivity.
Defined.



Lemma split_join_round_trip_witness :
  str_split "," (Str.join "," ["Fever"; "Diarrhea"]) = ["Fever"; "Diarrhea"]
  /\ forall text, Str.join "," (str_split "," text) = text.
Proof.
  apply (split_join_round_trip ["Fever"; "Diarrhea"]).
  - discriminate.
  - intros s [<- | [<- | []]]; reflexivity.
Defined.

Lemma count_sort_descending (counts : list (string * Z)) :
  StronglySorted (fun a b => snd b <= snd a) (CountSort.sort counts).
Proof.
  assert (StronglySorted (fun a b => is_true (CountOrder.leb a b))
                         (CountSort.sort counts)) as H.
  { apply CountSort.StronglySorted_sort. intros a b c.
    unfold CountOrder.leb, is_true. rewrite !Z.leb_le. lia. }
  induction H as [|a l _ IH Ha]; constructor; [exact IH|].
  rewrite Forall_forall in *. intros b Hb.
  apply Z.leb_le. exact (Ha b Hb).
Qed.

Lemma symptom_counts_are_record_counts_witness :
  let counts := symptom_counts CountSort.sort example_data in
  NoDup (map fst counts)
  /\ (forall s, In s (map fst counts) <->
                exists r, In r example_data /\ In s (str_split "," (Symptoms r)))
  /\ (forall s n,
        In (s, n) counts ->
        n = Z.of_nat (List.length
              (filter (fun r => existsb (String.eqb s) (str_split "," (Symptoms r)))
                      example_data)))
  /\ sum (map snd counts) = Z.of_nat (List.length (all_symptoms example_data))
  /\ StronglySorted (fun a b => snd b <= snd a) counts.
Proof.
  apply (symptom_counts_are_record_counts CountSort.sort
           CountSort.Permuted_sort count_sort_descending example_data).
  intros r [<- | [<- | []]]; vm_compute; repeat constructor; simpl; intuition discriminate.
Defined.

(** ** What is shown and what is downloaded *)

Section ShownAndDownloaded.

Variable sort_values : list (string * Z) -> list (string * Z).
Variable repr_date : Z -> string.
Variable repr_float : Q -> string.


End ShownAndDownloaded.
